(** * zf_log: level filtering, tag resolution and output routing

    A shallow embedding of [zf_log.h].  The header is a layer of preprocessor
    macros over three pieces of run-time state and two extern write
    functions:

    - the compile-time part ([#if], [#define]) is a function of the
      translation unit's configuration ([translation_unit]);
    - the run-time part (the [do { if (...) ...; } while (0)] bodies) is a
      computation in a small state monad over the process state ([world]);
    - the functions the header only declares ([zf_log_set_*],
      [_zf_log_write], [_zf_log_write_d]) live in [zf_log.c]; where a
      statement needs their bodies they are modelled from the specification
      and marked so. *)

From Stdlib Require Import ZArith List String Ascii Bool Lia.
From Stdlib Require Import Numbers.DecimalString.
From Stdlib Require Numbers.DecimalNat.
Import ListNotations.

Open Scope string_scope.
Open Scope Z_scope.

(** ** Severity levels (zf_log.h, lines 34-40) *)

Definition ZF_LOG_VERBOSE : Z := 1.
Definition ZF_LOG_DEBUG   : Z := 2.
Definition ZF_LOG_INFO    : Z := 3.
Definition ZF_LOG_WARN    : Z := 4.
Definition ZF_LOG_ERROR   : Z := 5.
Definition ZF_LOG_FATAL   : Z := 6.
Definition ZF_LOG_NONE    : Z := 0xFFFF.

(** ** Compile-time configuration of a translation unit

    What is, or is not, [#define]d before [zf_log.h] is included.  A macro
    that is not defined is [None]. *)

Record translation_unit : Type := {
  ZF_LOG_LEVEL     : option Z;
  ZF_LOG_DEF_LEVEL : option Z;
  NDEBUG           : bool;
  ZF_LOG_TAG       : option string;
  ZF_LOG_DEF_TAG   : option string
}.

(** Lines 70-80: [#if defined(ZF_LOG_LEVEL) ... #elif defined(ZF_LOG_DEF_LEVEL)
    ... #else #ifdef NDEBUG ...]. *)
Definition _ZF_LOG_LEVEL (tu : translation_unit) : Z :=
  match ZF_LOG_LEVEL tu with
  | Some l => l
  | None =>
      match ZF_LOG_DEF_LEVEL tu with
      | Some l => l
      | None => if NDEBUG tu then ZF_LOG_INFO else ZF_LOG_DEBUG
      end
  end.

(** Lines 97-103.  The C null pointer ([#define _ZF_LOG_TAG 0]) is [None]. *)
Definition _ZF_LOG_TAG (tu : translation_unit) : option string :=
  match ZF_LOG_TAG tu with
  | Some t => Some t
  | None =>
      match ZF_LOG_DEF_TAG tu with
      | Some t => Some t
      | None => None
      end
  end.

(** Line 172: [#define ZF_LOG_ALLOW(lvl) ((lvl) >= _ZF_LOG_LEVEL)]. *)
Definition ZF_LOG_ALLOW (tu : translation_unit) (lvl : Z) : bool :=
  lvl >=? _ZF_LOG_LEVEL tu.

Definition ZF_LOG_ALLOW_VERBOSE tu := ZF_LOG_ALLOW tu ZF_LOG_VERBOSE.
Definition ZF_LOG_ALLOW_DEBUG   tu := ZF_LOG_ALLOW tu ZF_LOG_DEBUG.
Definition ZF_LOG_ALLOW_INFO    tu := ZF_LOG_ALLOW tu ZF_LOG_INFO.
Definition ZF_LOG_ALLOW_WARN    tu := ZF_LOG_ALLOW tu ZF_LOG_WARN.
Definition ZF_LOG_ALLOW_ERROR   tu := ZF_LOG_ALLOW tu ZF_LOG_ERROR.
Definition ZF_LOG_ALLOW_FATAL   tu := ZF_LOG_ALLOW tu ZF_LOG_FATAL.

(** The call site of a logging macro: what [__FUNCTION__], [__FILE__] and
    [__LINE__] expand to there. *)
Record call_site : Type := {
  __FUNCTION__ : string;
  __FILE__     : string;
  __LINE__     : nat
}.

(** [_ZF_LOG_STRINGIFY(__LINE__)]: the decimal spelling of the line number. *)
Definition _ZF_LOG_STRINGIFY (n : nat) : string :=
  NilZero.string_of_uint (Nat.to_uint n).

(** [__FILE__ ":" _ZF_LOG_STRINGIFY(__LINE__)], line 210. *)
Definition location (cs : call_site) : string :=
  __FILE__ cs ++ ":" ++ _ZF_LOG_STRINGIFY (__LINE__ cs).

(** ** Text helpers *)

(** The first [n] bytes of [s]. *)
Fixpoint truncate (n : nat) (s : string) : string :=
  match n, s with
  | O, _ => ""
  | S _, "" => ""
  | S n', String c s' => String c (truncate n' s')
  end.

Fixpoint starts_with (p s : string) : bool :=
  match p, s with
  | "", _ => true
  | String _ _, "" => false
  | String a p', String b s' => Ascii.eqb a b && starts_with p' s'
  end.

(** [occurs_in needle hay]: [needle] is a contiguous part of [hay]. *)
Fixpoint occurs_in (needle hay : string) : bool :=
  starts_with needle hay
  || match hay with
     | "" => false
     | String _ hay' => occurs_in needle hay'
     end.

Definition contains (hay needle : string) : Prop :=
  exists pre post, hay = pre ++ needle ++ post.

Definition EOL : string := String "010" "".
Definition NUL : string := String "000" "".

(** ** Run-time state *)

(** A value passed through the [...] of a logging macro. *)
Inductive fmt_arg : Type :=
| ArgInt (z : Z)
| ArgStr (s : string).

(** [zf_log_output_cb] is a function pointer; a callback is identified by
    its address. *)
Definition zf_log_output_cb : Type := N.

(** One invocation [cb(lvl, s, len)] of the output callback. *)
Record sink_call : Type := {
  sink_cb  : zf_log_output_cb;
  sink_lvl : Z;
  sink_s   : string;
  sink_len : nat
}.

(** The process-wide variables of the facility.  [_zf_log_output_lvl] is
    declared at line 148; the other two are private to [zf_log.c]:

    Modelled from the spec: the tag prefix and the output sink (section 3,
    "Tag Prefix" and "Output Sink"); an absent sink or prefix is [None]. *)
Record zf_log_globals : Type := {
  _zf_log_output_lvl : Z;
  tag_prefix         : option string;
  output_callback    : option zf_log_output_cb
}.

(** The six logging macros [ZF_LOGV] ... [ZF_LOGF] and the level each one
    passes to [_ZF_LOG_IMP] (lines 220-260). *)
Inductive zf_log_macro : Type := LOGV | LOGD | LOGI | LOGW | LOGE | LOGF.

Definition macro_level (m : zf_log_macro) : Z :=
  match m with
  | LOGV => ZF_LOG_VERBOSE
  | LOGD => ZF_LOG_DEBUG
  | LOGI => ZF_LOG_INFO
  | LOGW => ZF_LOG_WARN
  | LOGE => ZF_LOG_ERROR
  | LOGF => ZF_LOG_FATAL
  end.

(** ** The Tag Resolver and the fields of a line *)

(** Modelled from the spec: a prefix is in force when it is "non-null /
    non-empty" (section 4.2; zf_log.h line 111: "Use 0 or empty string to
    disable"). *)
Definition prefix_in_force (prefix : option string) : option string :=
  match prefix with
  | Some (String c p) => Some (String c p)
  | Some "" => None
  | None => None
  end.

(** Modelled from the spec: the Tag Resolver of [zf_log.c], section 4.2:
    "if a non-null/non-empty prefix is set, [prefix + "." + call_site_tag],
    else [call_site_tag].  If [call_site_tag] itself is absent (null/zero),
    the resolver yields just the prefix (or nothing)". *)
Definition effective_tag (prefix tag : option string) : string :=
  match tag with
  | Some t =>
      match prefix_in_force prefix with
      | Some p => p ++ "." ++ t
      | None => t
      end
  | None =>
      match prefix_in_force prefix with
      | Some p => p
      | None => ""
      end
  end.

(** Modelled from the spec: what a line is rendered from (section 2,
    "Message Formatter"): the tag, the optional call-site metadata (function
    name, file:line) and the formatted message.  An empty tag takes no
    field. *)
Definition line_fields (src : option (string * string))
    (etag msg : string) : list string :=
  (match etag with "" => [] | _ => [etag] end)
  ++ (match src with Some (func, loc) => [func; loc] | None => [] end)
  ++ [msg].

(** ** A small formatter for the worked examples

    It substitutes [%d] and [%s] (any conversion letter, in fact) by the
    next argument and [%%] by a percent sign. *)

Definition show_arg (a : fmt_arg) : string :=
  match a with
  | ArgInt z => NilZero.string_of_int (Z.to_int z)
  | ArgStr s => s
  end.

Fixpoint simple_vformat (fmt : string) (args : list fmt_arg) : string :=
  match fmt with
  | "" => ""
  | String c rest =>
      if Ascii.eqb c "%" then
        match rest with
        | "" => String c ""
        | String d rest' =>
            if Ascii.eqb d "%" then String d (simple_vformat rest' args)
            else match args with
                 | a :: args' => show_arg a ++ simple_vformat rest' args'
                 | [] => simple_vformat rest' []
                 end
        end
      else String c (simple_vformat rest args)
  end.

(** A C computation either returns or terminates the process ([abort()]). *)
Inductive outcome (A : Type) : Type :=
| Returned (a : A)
| Aborted.

Arguments Returned {A} a.
Arguments Aborted {A}.

Section Machine.

(** The state of the calling program, which argument expressions of a log
    statement may read and write. *)
Variable U : Type.

Record world : Type := {
  user       : U;
  globals    : zf_log_globals;
  sink_calls : list sink_call   (* callback invocations so far, oldest first *)
}.

Definition M (A : Type) : Type := world -> outcome A * world.

Definition ret {A} (a : A) : M A := fun w => (Returned a, w).

Definition bind {A B} (c : M A) (k : A -> M B) : M B :=
  fun w =>
    match c w with
    | (Returned a, w') => k a w'
    | (Aborted, w') => (Aborted, w')
    end.

Definition abort {A} : M A := fun w => (Aborted, w).

(** The value of the [...] of a macro call: the evaluation of all argument
    expressions, yielding the format string and the remaining values.  C
    leaves the order of evaluation of arguments open, so the whole list is
    one computation. *)
Definition va_list : Type := (string * list fmt_arg)%type.
Definition va_args : Type := M va_list.

(** C's [if (e)] tests [e != 0]. *)
Definition c_true (e : Z) : bool := negb (Z.eqb e 0).

(** Lines 190-191:
    [(ZF_LOG_ALLOW((lvl)) && (lvl) >= _zf_log_output_lvl)]. *)
Definition ZF_LOG_OUTPUT (tu : translation_unit) (lvl : Z) (w : world) : bool :=
  ZF_LOG_ALLOW tu lvl && (lvl >=? _zf_log_output_lvl (globals w)).

Definition ZF_LOG_OUTPUT_VERBOSE tu := ZF_LOG_OUTPUT tu ZF_LOG_VERBOSE.
Definition ZF_LOG_OUTPUT_DEBUG   tu := ZF_LOG_OUTPUT tu ZF_LOG_DEBUG.
Definition ZF_LOG_OUTPUT_INFO    tu := ZF_LOG_OUTPUT tu ZF_LOG_INFO.
Definition ZF_LOG_OUTPUT_WARN    tu := ZF_LOG_OUTPUT tu ZF_LOG_WARN.
Definition ZF_LOG_OUTPUT_ERROR   tu := ZF_LOG_OUTPUT tu ZF_LOG_ERROR.
Definition ZF_LOG_OUTPUT_FATAL   tu := ZF_LOG_OUTPUT tu ZF_LOG_FATAL.

(** Line 215: [static inline void _zf_log_unused(const int dummy, ...)
    {(void)dummy;}]. *)
Definition _zf_log_unused (dummy : Z) (va : va_list) : M unit := ret tt.

(** Lines 217-218: [do { if (0) _zf_log_unused(0, __VA_ARGS__); } while (0)]. *)
Definition _ZF_LOG_UNUSED (va : va_args) : M unit :=
  if c_true 0 then bind va (fun v => _zf_log_unused 0 v) else ret tt.

Section Header.

(** The two extern write functions (lines 150-154), whose bodies are in
    [zf_log.c]. *)
Variable write_d :
  string -> string -> Z -> option string -> string -> list fmt_arg -> M unit.
Variable write :
  Z -> option string -> string -> list fmt_arg -> M unit.

(** The guarded statement of [_ZF_LOG_IMP], lines 199-213: the call of
    the write function with the evaluated arguments. *)
Definition write_stage (tu : translation_unit) (cs : call_site)
    (lvl : Z) (tag : option string) (va : va_args) : M unit :=
  if NDEBUG tu
  then bind va (fun v => write lvl tag (fst v) (snd v))
  else bind va (fun v =>
         write_d (__FUNCTION__ cs) (location cs) lvl tag (fst v) (snd v)).

(** [do { if (ZF_LOG_OUTPUT(lvl)) ...; } while (0)]. *)
Definition _ZF_LOG_IMP (tu : translation_unit) (cs : call_site)
    (lvl : Z) (tag : option string) (va : va_args) : M unit :=
  fun w =>
    if ZF_LOG_OUTPUT tu lvl w
    then write_stage tu cs lvl tag va w
    else ret tt w.

(** Lines 220-260: one macro per level, chosen by [#if ZF_LOG_ALLOW_x]. *)
Definition ZF_LOGV tu cs (va : va_args) : M unit :=
  if ZF_LOG_ALLOW_VERBOSE tu
  then _ZF_LOG_IMP tu cs ZF_LOG_VERBOSE (_ZF_LOG_TAG tu) va
  else _ZF_LOG_UNUSED va.

Definition ZF_LOGD tu cs (va : va_args) : M unit :=
  if ZF_LOG_ALLOW_DEBUG tu
  then _ZF_LOG_IMP tu cs ZF_LOG_DEBUG (_ZF_LOG_TAG tu) va
  else _ZF_LOG_UNUSED va.

Definition ZF_LOGI tu cs (va : va_args) : M unit :=
  if ZF_LOG_ALLOW_INFO tu
  then _ZF_LOG_IMP tu cs ZF_LOG_INFO (_ZF_LOG_TAG tu) va
  else _ZF_LOG_UNUSED va.

Definition ZF_LOGW tu cs (va : va_args) : M unit :=
  if ZF_LOG_ALLOW_WARN tu
  then _ZF_LOG_IMP tu cs ZF_LOG_WARN (_ZF_LOG_TAG tu) va
  else _ZF_LOG_UNUSED va.

Definition ZF_LOGE tu cs (va : va_args) : M unit :=
  if ZF_LOG_ALLOW_ERROR tu
  then _ZF_LOG_IMP tu cs ZF_LOG_ERROR (_ZF_LOG_TAG tu) va
  else _ZF_LOG_UNUSED va.

Definition ZF_LOGF tu cs (va : va_args) : M unit :=
  if ZF_LOG_ALLOW_FATAL tu
  then _ZF_LOG_IMP tu cs ZF_LOG_FATAL (_ZF_LOG_TAG tu) va
  else _ZF_LOG_UNUSED va.

(** The six logging macros. *)
Definition ZF_LOG (m : zf_log_macro) :
    translation_unit -> call_site -> va_args -> M unit :=
  match m with
  | LOGV => ZF_LOGV
  | LOGD => ZF_LOGD
  | LOGI => ZF_LOGI
  | LOGW => ZF_LOGW
  | LOGE => ZF_LOGE
  | LOGF => ZF_LOGF
  end.

(** A straight-line piece of program made of log statements, possibly
    from several translation units. *)
Definition log_statement : Type :=
  (zf_log_macro * translation_unit * call_site * va_args)%type.

Fixpoint run_statements (l : list log_statement) : M unit :=
  match l with
  | [] => ret tt
  | (m, tu, cs, va) :: l' =>
      bind (ZF_LOG m tu cs va) (fun _ => run_statements l')
  end.

End Header.

(** ** The implementation file [zf_log.c]

    Only the header is at hand; the bodies of the functions it declares
    are modelled from the specification. *)

(** Modelled from the spec: [zf_log_set_output_level] (declared line 119),
    section 4.4: "[set_output_level(lvl)] updates the Runtime Output
    Threshold unconditionally". *)
Definition zf_log_set_output_level (lvl : Z) : M unit :=
  fun w =>
    (Returned tt,
     {| user := user w;
        globals := {| _zf_log_output_lvl := lvl;
                      tag_prefix := tag_prefix (globals w);
                      output_callback := output_callback (globals w) |};
        sink_calls := sink_calls w |}).

(** Modelled from the spec: [zf_log_set_tag_prefix] (declared line 113),
    section 4.4: "[set_tag_prefix(prefix)] updates the Tag Prefix (copy
    semantics)"; the null pointer is [None]. *)
Definition zf_log_set_tag_prefix (prefix : option string) : M unit :=
  fun w =>
    (Returned tt,
     {| user := user w;
        globals := {| _zf_log_output_lvl := _zf_log_output_lvl (globals w);
                      tag_prefix := prefix;
                      output_callback := output_callback (globals w) |};
        sink_calls := sink_calls w |}).

(** Modelled from the spec: [zf_log_set_output_callback] (declared line
    132), section 4.4: "[set_output_callback(cb)] replaces the active sink;
    passing an empty/null sink disables output entirely". *)
Definition zf_log_set_output_callback (cb : option zf_log_output_cb) : M unit :=
  fun w =>
    (Returned tt,
     {| user := user w;
        globals := {| _zf_log_output_lvl := _zf_log_output_lvl (globals w);
                      tag_prefix := tag_prefix (globals w);
                      output_callback := cb |};
        sink_calls := sink_calls w |}).

(** Modelled from the spec: the Output Router's [dispatch], section 4.4:
    "invokes the currently registered sink exactly once per allowed log
    call, synchronously"; with no sink registered "dispatch becomes a
    silent no-op" (section 7).  The sink receives the zero-terminated line
    with its line feed, and the number of bytes before the line feed
    (zf_log.h lines 121-127). *)
Definition dispatch (lvl : Z) (line : string) : M unit :=
  fun w =>
    match output_callback (globals w) with
    | Some cb =>
        (Returned tt,
         {| user := user w;
            globals := globals w;
            sink_calls :=
              sink_calls w ++
              [ {| sink_cb := cb; sink_lvl := lvl;
                   sink_s := line ++ EOL ++ NUL;
                   sink_len := String.length line |} ] |})
    | None => (Returned tt, w)
    end.

Section Implementation.

(** The formatted-string rendering engine is an external collaborator
    (section 1): any function from a format string and its arguments to
    the rendered message. *)
Variable vformat : string -> list fmt_arg -> string.

(** The capacity of the line buffer, in bytes before the line
    terminator. *)
Variable line_max : nat.

(** Whether the most severe level terminates the process after dispatch:
    the specification leaves it to the design (sections 7 and 9). *)
Variable abort_on_fatal : bool.

(** Modelled from the spec: the Message Formatter, section 4.3.  The line
    is made of the effective tag, the call-site metadata when there is
    any, and the formatted message; a line that does not fit the buffer
    is truncated ("insufficient buffer ... truncate the line and still
    deliver it").  The specification names the fields of a line, not
    their layout: here they come in the order the specification lists
    them, separated by one space. *)
Definition format_line (src : option (string * string))
    (etag msg : string) : string :=
  truncate line_max (String.concat " " (line_fields src etag msg)).

(** Modelled from the spec: the common body of [_zf_log_write_d] and
    [_zf_log_write] (declared lines 150-154), sections 2 and 6: resolve
    the tag, format the line, hand it to the sink; and, where the design
    keeps that behaviour, terminate the process after a FATAL message
    has been dispatched (section 7). *)
Definition write_line (src : option (string * string)) (lvl : Z)
    (tag : option string) (fmt : string) (args : list fmt_arg) : M unit :=
  fun w =>
    let etag := effective_tag (tag_prefix (globals w)) tag in
    let line := format_line src etag (vformat fmt args) in
    bind (dispatch lvl line)
         (fun _ => if abort_on_fatal && (lvl =? ZF_LOG_FATAL)%Z
                   then abort else ret tt) w.

(** Modelled from the spec: the verbose variant "includes function name
    and file:line alongside tag and message" (section 4.3). *)
Definition _zf_log_write_d (func loc : string) (lvl : Z)
    (tag : option string) (fmt : string) (args : list fmt_arg) : M unit :=
  write_line (Some (func, loc)) lvl tag fmt args.

(** Modelled from the spec: the compact variant "omits call-site
    metadata" (section 4.3). *)
Definition _zf_log_write (lvl : Z) (tag : option string)
    (fmt : string) (args : list fmt_arg) : M unit :=
  write_line None lvl tag fmt args.

(** A log statement of the program: the header's macro over the two
    write functions above. *)
Definition log_call (m : zf_log_macro) (tu : translation_unit)
    (cs : call_site) (va : va_args) : M unit :=
  ZF_LOG _zf_log_write_d _zf_log_write m tu cs va.

End Implementation.

End Machine.

Arguments user {U} w.
Arguments globals {U} w.
Arguments sink_calls {U} w.
Arguments Build_world {U} user globals sink_calls.
Arguments ret {U A} a w.
Arguments bind {U A B} c k w.
Arguments abort {U A} w.
Arguments ZF_LOG_OUTPUT {U} tu lvl w.
Arguments _zf_log_unused {U} dummy va w.
Arguments _ZF_LOG_UNUSED {U} va.
Arguments write_stage {U} write_d write tu cs lvl tag va.
Arguments _ZF_LOG_IMP {U} write_d write tu cs lvl tag va w.
Arguments ZF_LOGV {U} write_d write tu cs va.
Arguments ZF_LOGD {U} write_d write tu cs va.
Arguments ZF_LOGI {U} write_d write tu cs va.
Arguments ZF_LOGW {U} write_d write tu cs va.
Arguments ZF_LOGE {U} write_d write tu cs va.
Arguments ZF_LOGF {U} write_d write tu cs va.
Arguments ZF_LOG {U} write_d write m tu cs va.
Arguments run_statements {U} write_d write l w.
Arguments zf_log_set_output_level {U} lvl w.
Arguments zf_log_set_tag_prefix {U} prefix w.
Arguments zf_log_set_output_callback {U} cb w.
Arguments dispatch {U} lvl line w.
Arguments write_line {U} vformat line_max abort_on_fatal src lvl tag fmt args w.
Arguments _zf_log_write_d {U} vformat line_max abort_on_fatal func loc lvl tag fmt args.
Arguments _zf_log_write {U} vformat line_max abort_on_fatal lvl tag fmt args.
Arguments log_call {U} vformat line_max abort_on_fatal m tu cs va.

(** What a write function is told about the call site (lines 199-213):
    nothing under [NDEBUG], else [__FUNCTION__] and
    [__FILE__ ":" _ZF_LOG_STRINGIFY(__LINE__)]. *)
Definition call_site_metadata (tu : translation_unit) (cs : call_site)
    : option (string * string) :=
  if NDEBUG tu then None else Some (__FUNCTION__ cs, location cs).

(** ** Inputs of the worked examples *)

(** A debug-mode unit that defines [ZF_LOG_LEVEL] as [ZF_LOG_INFO] and
    [ZF_LOG_TAG] as ["NET"]. *)
Definition net_unit : translation_unit :=
  {| ZF_LOG_LEVEL := Some ZF_LOG_INFO; ZF_LOG_DEF_LEVEL := None;
     NDEBUG := false; ZF_LOG_TAG := Some "NET"; ZF_LOG_DEF_TAG := None |}.

(** The same unit built for release. *)
Definition net_unit_release : translation_unit :=
  {| ZF_LOG_LEVEL := Some ZF_LOG_INFO; ZF_LOG_DEF_LEVEL := None;
     NDEBUG := true; ZF_LOG_TAG := Some "NET"; ZF_LOG_DEF_TAG := None |}.

Definition main_42 : call_site :=
  {| __FUNCTION__ := "main"; __FILE__ := "main.c"; __LINE__ := 42 |}.

(** A process whose own state is a counter, with prefix ["APP"], callback
    number 7 and an output level that lets everything through. *)
Definition app_world : world nat :=
  {| user := 0%nat;
     globals := {| _zf_log_output_lvl := 0; tag_prefix := Some "APP";
                   output_callback := Some 7%N |};
     sink_calls := [] |}.

(** The arguments [("started pid=%d", pid_of(++counter))]: evaluating them
    bumps the counter of the calling program. *)
Definition pid_args : va_args nat :=
  fun w =>
    (Returned ("started pid=%d", [ArgInt 42]),
     {| user := S (user w); globals := globals w;
        sink_calls := sink_calls w |}).

(** ** Programs around the macros *)

(** Whether a log statement exists in the compiled unit: the
    [#if ZF_LOG_ALLOW_x] of its macro (lines 220-260). *)
Definition compiled_in {U : Type} (s : log_statement U) : bool :=
  let '(m, tu, _, _) := s in ZF_LOG_ALLOW tu (macro_level m).

(** The floor of the unit a log statement is written in. *)
Definition statement_floor {U : Type} (s : log_statement U) : Z :=
  let '(_, tu, _, _) := s in _ZF_LOG_LEVEL tu.

(** The guarded block of the usage note at lines 180-189,
    [if (ZF_LOG_OUTPUT_x) { prepare; ZF_LOGx(...); }]: the arguments of the
    statement are computed from what [prepare] yields. *)
Definition output_guarded_block {U A : Type}
    (write_d :
       string -> string -> Z -> option string -> string -> list fmt_arg ->
       M U unit)
    (write : Z -> option string -> string -> list fmt_arg -> M U unit)
    (m : zf_log_macro) (tu : translation_unit) (cs : call_site)
    (prepare : M U A) (args : A -> va_args U) : M U unit :=
  fun w =>
    if ZF_LOG_OUTPUT tu (macro_level m) w
    then bind prepare (fun a => ZF_LOG write_d write m tu cs (args a)) w
    else ret tt w.

(** Write functions for the worked examples of the header: each call puts
    its level on a list kept in the caller's state. *)
Definition recording_write_d (func loc : string) (lvl : Z)
    (tag : option string) (fmt : string) (args : list fmt_arg)
    : M (list Z) unit :=
  fun w =>
    (Returned tt,
     {| user := lvl :: user w; globals := globals w;
        sink_calls := sink_calls w |}).

Definition recording_write (lvl : Z) (tag : option string) (fmt : string)
    (args : list fmt_arg) : M (list Z) unit :=
  fun w =>
    (Returned tt,
     {| user := lvl :: user w; globals := globals w;
        sink_calls := sink_calls w |}).

(** A process that has recorded nothing yet, at a given output level. *)
Definition fresh_world (output_lvl : Z) : world (list Z) :=
  {| user := [];
     globals := {| _zf_log_output_lvl := output_lvl; tag_prefix := None;
                   output_callback := None |};
     sink_calls := [] |}.

(** A unit that defines nothing: the floor comes from the build mode. *)
Definition plain_unit (ndebug : bool) : translation_unit :=
  {| ZF_LOG_LEVEL := None; ZF_LOG_DEF_LEVEL := None; NDEBUG := ndebug;
     ZF_LOG_TAG := None; ZF_LOG_DEF_TAG := None |}.

(** A unit whose build defines [ZF_LOG_DEF_LEVEL] only. *)
Definition def_level_unit (lvl : Z) : translation_unit :=
  {| ZF_LOG_LEVEL := None; ZF_LOG_DEF_LEVEL := Some lvl; NDEBUG := false;
     ZF_LOG_TAG := None; ZF_LOG_DEF_TAG := Some "NET" |}.

(** Arguments that abort the process when they are evaluated. *)
Definition fatal_args : va_args (list Z) := abort.

(** * Properties of the header *)

Section HeaderFacts.

Variable U : Type.
Variable write_d :
  string -> string -> Z -> option string -> string -> list fmt_arg -> M U unit.
Variable write :
  Z -> option string -> string -> list fmt_arg -> M U unit.

Lemma ZF_LOG_ALLOW_ge tu lvl :
  ZF_LOG_ALLOW tu lvl = (_ZF_LOG_LEVEL tu <=? lvl).
Proof. unfold ZF_LOG_ALLOW. apply Z.geb_leb. Qed.

Lemma ZF_LOG_OUTPUT_max tu lvl (w : world U) :
  ZF_LOG_OUTPUT tu lvl w =
  (Z.max (_ZF_LOG_LEVEL tu) (_zf_log_output_lvl (globals w)) <=? lvl).
Proof.
  unfold ZF_LOG_OUTPUT. rewrite ZF_LOG_ALLOW_ge, Z.geb_leb.
  destruct (Z.leb_spec (_ZF_LOG_LEVEL tu) lvl);
    destruct (Z.leb_spec (_zf_log_output_lvl (globals w)) lvl);
    destruct (Z.leb_spec
                (Z.max (_ZF_LOG_LEVEL tu) (_zf_log_output_lvl (globals w)))
                lvl); simpl; try reflexivity; lia.
Qed.

(** Each macro is its level's instance of one scheme. *)
Lemma ZF_LOG_expand m tu cs (va : va_args U) :
  ZF_LOG write_d write m tu cs va =
  if ZF_LOG_ALLOW tu (macro_level m)
  then _ZF_LOG_IMP write_d write tu cs (macro_level m) (_ZF_LOG_TAG tu) va
  else _ZF_LOG_UNUSED va.
Proof. destruct m; reflexivity. Qed.

(** [if (0)] never runs its body. *)
Lemma _ZF_LOG_UNUSED_skip (va : va_args U) (w : world U) :
  _ZF_LOG_UNUSED va w = (Returned tt, w).
Proof. reflexivity. Qed.

(** The two filters of a log statement collapse into one comparison. *)
Lemma ZF_LOG_filter m tu cs (va : va_args U) (w : world U) :
  ZF_LOG write_d write m tu cs va w =
  if Z.max (_ZF_LOG_LEVEL tu) (_zf_log_output_lvl (globals w))
     <=? macro_level m
  then write_stage write_d write tu cs (macro_level m) (_ZF_LOG_TAG tu) va w
  else (Returned tt, w).
Proof.
  rewrite ZF_LOG_expand. unfold _ZF_LOG_IMP.
  rewrite <- ZF_LOG_OUTPUT_max. unfold ZF_LOG_OUTPUT.
  destruct (ZF_LOG_ALLOW tu (macro_level m)); simpl.
  - destruct (macro_level m >=? _zf_log_output_lvl (globals w)); reflexivity.
  - apply _ZF_LOG_UNUSED_skip.
Qed.

Lemma macro_level_range m :
  ZF_LOG_VERBOSE <= macro_level m <= ZF_LOG_FATAL.
Proof. destruct m; cbv; split; discriminate. Qed.

(** The guarded statement, spelled out: the arguments are evaluated, then
    the write function of the build mode is called with their values. *)
Lemma write_stage_call tu cs lvl tag (va : va_args U) (w : world U) :
  write_stage write_d write tu cs lvl tag va w =
  match va w with
  | (Returned (fmt, args), w1) =>
      if NDEBUG tu
      then write lvl tag fmt args w1
      else write_d (__FUNCTION__ cs)
             (__FILE__ cs ++ ":" ++ _ZF_LOG_STRINGIFY (__LINE__ cs))
             lvl tag fmt args w1
  | (Aborted, w1) => (Aborted, w1)
  end.
Proof.
  unfold write_stage, bind, location.
  destruct (NDEBUG tu); destruct (va w) as [[[fmt args]|] w1]; reflexivity.
Qed.

(** C1.  A log statement at level [L] reaches the write stage exactly when
    [L >= _ZF_LOG_LEVEL] and [L >= _zf_log_output_lvl]: when both hold it
    evaluates its arguments and calls the write function of the build mode
    ([_zf_log_write] with [NDEBUG], [_zf_log_write_d] with the function name
    and [file:line] otherwise) with its level, the unit's tag and the
    argument values; otherwise it does nothing.  The run-time predicate
    [ZF_LOG_OUTPUT] is [ZF_LOG_ALLOW] and the threshold test, so the
    effective minimum level is the greater of the two. *)
Theorem log_reaches_write_iff_both_thresholds :
  forall m tu cs (va : va_args U) (w : world U),
    let L := macro_level m in
    let floor := _ZF_LOG_LEVEL tu in
    let threshold := _zf_log_output_lvl (globals w) in
    ZF_LOG write_d write m tu cs va w =
      (if (L >=? floor) && (L >=? threshold)
       then match va w with
            | (Returned (fmt, args), w1) =>
                if NDEBUG tu
                then write L (_ZF_LOG_TAG tu) fmt args w1
                else write_d (__FUNCTION__ cs)
                       (__FILE__ cs ++ ":" ++ _ZF_LOG_STRINGIFY (__LINE__ cs))
                       L (_ZF_LOG_TAG tu) fmt args w1
            | (Aborted, w1) => (Aborted, w1)
            end
       else (Returned tt, w))
    /\ (forall lvl,
          ZF_LOG_OUTPUT tu lvl w = ZF_LOG_ALLOW tu lvl && (lvl >=? threshold))
    /\ (forall lvl, ZF_LOG_ALLOW tu lvl = (lvl >=? floor))
    /\ (forall lvl,
          ZF_LOG_OUTPUT tu lvl w = true <-> Z.max floor threshold <= lvl).
Proof.
  intros m tu cs va w L floor threshold. repeat split.
  - rewrite ZF_LOG_filter, write_stage_call. fold L floor threshold.
    rewrite !Z.geb_leb.
    destruct (Z.leb_spec floor L); destruct (Z.leb_spec threshold L);
      destruct (Z.leb_spec (Z.max floor threshold) L);
      simpl; try reflexivity; lia.
  - rewrite ZF_LOG_OUTPUT_max. intro H. apply Z.leb_le. exact H.
  - rewrite ZF_LOG_OUTPUT_max. intro H. apply Z.leb_le. exact H.
Qed.

(** C2.  A logging macro whose level is below [_ZF_LOG_LEVEL] does
    nothing: whatever the argument expressions [va] would do (change the
    state, log, abort), they are not evaluated, no write function is
    called and the process state is the one before the statement. *)
Theorem compiled_out_statement_is_noop :
  forall m tu cs (va : va_args U) (w : world U),
    macro_level m < _ZF_LOG_LEVEL tu ->
    ZF_LOG write_d write m tu cs va w = (Returned tt, w).
Proof.
  intros m tu cs va w Hlt.
  rewrite ZF_LOG_expand, ZF_LOG_ALLOW_ge.
  destruct (Z.leb_spec (_ZF_LOG_LEVEL tu) (macro_level m)); [lia|].
  apply _ZF_LOG_UNUSED_skip.
Qed.

(** C3.  With an output level [t] below [_ZF_LOG_LEVEL], filtering is the
    one of an output level equal to [_ZF_LOG_LEVEL]: [ZF_LOG_OUTPUT]
    agrees at every level, a statement below the floor stays a no-op and
    exactly the statements at or above the floor evaluate their arguments
    and call the write function. *)
Theorem output_level_below_floor_is_floor :
  forall tu t (w w_floor : world U),
    t < _ZF_LOG_LEVEL tu ->
    _zf_log_output_lvl (globals w) = t ->
    _zf_log_output_lvl (globals w_floor) = _ZF_LOG_LEVEL tu ->
    (forall lvl, ZF_LOG_OUTPUT tu lvl w = ZF_LOG_OUTPUT tu lvl w_floor)
    /\ (forall lvl, ZF_LOG_OUTPUT tu lvl w = (lvl >=? _ZF_LOG_LEVEL tu))
    /\ (forall m cs (va : va_args U),
          ZF_LOG write_d write m tu cs va w =
          if macro_level m >=? _ZF_LOG_LEVEL tu
          then match va w with
               | (Returned (fmt, args), w1) =>
                   if NDEBUG tu
                   then write (macro_level m) (_ZF_LOG_TAG tu) fmt args w1
                   else write_d (__FUNCTION__ cs)
                          (__FILE__ cs ++ ":" ++ _ZF_LOG_STRINGIFY (__LINE__ cs))
                          (macro_level m) (_ZF_LOG_TAG tu) fmt args w1
               | (Aborted, w1) => (Aborted, w1)
               end
          else (Returned tt, w)).
Proof.
  intros tu t w w_floor Hlt Ht Hfloor.
  assert (Hw : forall lvl,
             ZF_LOG_OUTPUT tu lvl w = (lvl >=? _ZF_LOG_LEVEL tu)).
  { intro lvl. rewrite ZF_LOG_OUTPUT_max, Ht, Z.geb_leb.
    rewrite Z.max_l by lia. reflexivity. }
  repeat split.
  - intro lvl. rewrite Hw, ZF_LOG_OUTPUT_max, Hfloor, Z.max_id.
    apply Z.geb_leb.
  - exact Hw.
  - intros m cs va. rewrite ZF_LOG_filter, write_stage_call, Ht, Z.geb_leb.
    rewrite Z.max_l by lia. reflexivity.
Qed.

Lemma statement_noop_at_NONE m tu cs (va : va_args U) (w : world U) :
  _zf_log_output_lvl (globals w) = ZF_LOG_NONE ->
  ZF_LOG write_d write m tu cs va w = (Returned tt, w).
Proof.
  intro Hnone. rewrite ZF_LOG_filter, Hnone.
  pose proof (macro_level_range m) as [_ Hle].
  destruct (Z.leb_spec (Z.max (_ZF_LOG_LEVEL tu) ZF_LOG_NONE) (macro_level m));
    [|reflexivity].
  unfold ZF_LOG_NONE, ZF_LOG_FATAL in *. lia.
Qed.

(** C4.  The level constants increase strictly, [ZF_LOG_NONE] being above
    every level a macro logs at; and once the output level holds
    [ZF_LOG_NONE], any sequence of log statements, in translation units of
    any floor, returns with the process state untouched: no write function
    is entered, so no callback invocation is added. *)
Theorem NONE_is_top_and_silences_all :
  (ZF_LOG_VERBOSE < ZF_LOG_DEBUG /\ ZF_LOG_DEBUG < ZF_LOG_INFO
   /\ ZF_LOG_INFO < ZF_LOG_WARN /\ ZF_LOG_WARN < ZF_LOG_ERROR
   /\ ZF_LOG_ERROR < ZF_LOG_FATAL /\ ZF_LOG_FATAL < ZF_LOG_NONE)
  /\ (ZF_LOG_VERBOSE = 1 /\ ZF_LOG_DEBUG = 2 /\ ZF_LOG_INFO = 3
      /\ ZF_LOG_WARN = 4 /\ ZF_LOG_ERROR = 5 /\ ZF_LOG_FATAL = 6
      /\ ZF_LOG_NONE = 65535)
  /\ (forall m, macro_level m < ZF_LOG_NONE)
  /\ (forall (l : list (log_statement U)) (w : world U),
        _zf_log_output_lvl (globals w) = ZF_LOG_NONE ->
        run_statements write_d write l w = (Returned tt, w)
        /\ sink_calls (snd (run_statements write_d write l w))
           = sink_calls w).
Proof.
  split; [cbv; repeat split|].
  split; [cbv; repeat split|].
  split; [intro m; destruct m; reflexivity|].
  intros l w Hnone.
  assert (Hrun : run_statements write_d write l w = (Returned tt, w)).
  { induction l as [|[[[m tu] cs] va] l IH]; [reflexivity|].
    simpl. unfold bind. rewrite statement_noop_at_NONE by exact Hnone.
    exact IH. }
  rewrite Hrun. split; reflexivity.
Qed.

(** C5.  [_ZF_LOG_LEVEL] is [ZF_LOG_LEVEL] when that is defined; else
    [ZF_LOG_DEF_LEVEL] when that is defined; else [ZF_LOG_INFO] with
    [NDEBUG] and [ZF_LOG_DEBUG] without. *)
Theorem floor_selection_priority :
  forall (lvl def : Z) (odef : option Z) (ndebug : bool)
         (tag dtag : option string),
    _ZF_LOG_LEVEL {| ZF_LOG_LEVEL := Some lvl; ZF_LOG_DEF_LEVEL := odef;
                     NDEBUG := ndebug; ZF_LOG_TAG := tag;
                     ZF_LOG_DEF_TAG := dtag |} = lvl
    /\ _ZF_LOG_LEVEL {| ZF_LOG_LEVEL := None; ZF_LOG_DEF_LEVEL := Some def;
                        NDEBUG := ndebug; ZF_LOG_TAG := tag;
                        ZF_LOG_DEF_TAG := dtag |} = def
    /\ _ZF_LOG_LEVEL {| ZF_LOG_LEVEL := None; ZF_LOG_DEF_LEVEL := None;
                        NDEBUG := true; ZF_LOG_TAG := tag;
                        ZF_LOG_DEF_TAG := dtag |} = ZF_LOG_INFO
    /\ _ZF_LOG_LEVEL {| ZF_LOG_LEVEL := None; ZF_LOG_DEF_LEVEL := None;
                        NDEBUG := false; ZF_LOG_TAG := tag;
                        ZF_LOG_DEF_TAG := dtag |} = ZF_LOG_DEBUG.
Proof. intros. repeat split. Qed.

(** C10.  Whether a log statement reaches the write stage is a function of
    its level, the floor and the output level alone: two statements of the
    same macro, under equal floors and equal output levels, take the same
    branch whatever their tags, tag prefixes, build modes, call sites,
    format strings, arguments and callbacks. *)
Theorem emit_decision_depends_on_levels_only :
  forall m tu1 tu2 cs1 cs2 (va1 va2 : va_args U) (w1 w2 : world U),
    _ZF_LOG_LEVEL tu1 = _ZF_LOG_LEVEL tu2 ->
    _zf_log_output_lvl (globals w1) = _zf_log_output_lvl (globals w2) ->
    ZF_LOG_OUTPUT tu1 (macro_level m) w1 = ZF_LOG_OUTPUT tu2 (macro_level m) w2
    /\ exists emit : bool,
         emit = (Z.max (_ZF_LOG_LEVEL tu1) (_zf_log_output_lvl (globals w1))
                 <=? macro_level m)
         /\ ZF_LOG write_d write m tu1 cs1 va1 w1 =
            (if emit
             then write_stage write_d write tu1 cs1 (macro_level m)
                    (_ZF_LOG_TAG tu1) va1 w1
             else (Returned tt, w1))
         /\ ZF_LOG write_d write m tu2 cs2 va2 w2 =
            (if emit
             then write_stage write_d write tu2 cs2 (macro_level m)
                    (_ZF_LOG_TAG tu2) va2 w2
             else (Returned tt, w2)).
Proof.
  intros m tu1 tu2 cs1 cs2 va1 va2 w1 w2 Hfloor Hthr. split.
  - rewrite !ZF_LOG_OUTPUT_max. congruence.
  - eexists. split; [reflexivity|]. split.
    + apply ZF_LOG_filter.
    + rewrite Hfloor, Hthr. apply ZF_LOG_filter.
Qed.

End HeaderFacts.

(** * Properties of text *)

Section Text.

Local Open Scope nat_scope.



Lemma length_append (a b : string) :
  String.length (a ++ b) = String.length a + String.length b.
Proof. induction a as [|x a IH]; simpl; [|rewrite IH]; reflexivity. Qed.


Lemma truncate_length (n : nat) (s : string) :
  String.length (truncate n s) <= n.
Proof.
  revert s. induction n as [|n IH]; intros [|c s]; simpl; try lia.
  specialize (IH s). lia.
Qed.








Lemma starts_with_app (p s : string) : starts_with p (p ++ s) = true.
Proof.
  induction p as [|c p IH]; simpl; [reflexivity|].
  now rewrite Ascii.eqb_refl, IH.
Qed.

Lemma occurs_in_unfold (needle hay : string) :
  occurs_in needle hay =
  starts_with needle hay
  || match hay with
     | "" => false
     | String _ hay' => occurs_in needle hay'
     end.
Proof. destruct hay; reflexivity. Qed.

(** [occurs_in] finds every occurrence. *)
Lemma occurs_in_complete (hay needle : string) :
  contains hay needle -> occurs_in needle hay = true.
Proof.
  intros (pre & post & ->).
  induction pre as [|c pre IH].
  - change ("" ++ needle ++ post) with (needle ++ post).
    rewrite occurs_in_unfold, starts_with_app. reflexivity.
  - change (String c pre ++ needle ++ post)
      with (String c (pre ++ needle ++ post)).
    rewrite occurs_in_unfold, IH. apply orb_true_r.
Qed.

Lemma not_occurs_not_contains (hay needle : string) :
  occurs_in needle hay = false -> ~ contains hay needle.
Proof.
  intros Hocc Hc. apply occurs_in_complete in Hc. congruence.
Qed.




End Text.

(** * Properties of the modelled implementation *)

Section ImplementationFacts.

Variable U : Type.
Variable vformat : string -> list fmt_arg -> string.
Variable line_max : nat.
Variable abort_on_fatal : bool.

Lemma dispatch_returns lvl line (w : world U) :
  fst (dispatch lvl line w) = Returned tt.
Proof. unfold dispatch. now destruct (output_callback (globals w)). Qed.


Lemma dispatch_registered lvl line (w : world U) cb :
  output_callback (globals w) = Some cb ->
  sink_calls (snd (dispatch lvl line w)) =
  (sink_calls w ++ [ {| sink_cb := cb; sink_lvl := lvl;
                        sink_s := line ++ EOL ++ NUL;
                        sink_len := String.length line |} ])%list.
Proof. unfold dispatch. now intros ->. Qed.

(** A write function dispatches the line, then returns or aborts. *)
Lemma write_line_run src lvl tag fmt args (w : world U) :
  write_line vformat line_max abort_on_fatal src lvl tag fmt args w =
  (if abort_on_fatal && (lvl =? ZF_LOG_FATAL) then Aborted else Returned tt,
   snd (dispatch lvl
          (format_line line_max src
             (effective_tag (tag_prefix (globals w)) tag)
             (vformat fmt args)) w)).
Proof.
  unfold write_line, bind.
  destruct (dispatch lvl _ w) as [[[] |] w'] eqn:E; simpl.
  - destruct (abort_on_fatal && (lvl =? ZF_LOG_FATAL)); reflexivity.
  - pose proof (dispatch_returns lvl
                  (format_line line_max src
                     (effective_tag (tag_prefix (globals w)) tag)
                     (vformat fmt args)) w) as H.
    rewrite E in H. discriminate.
Qed.

(** A log statement over the modelled write functions. *)
Lemma log_call_filter m tu cs (va : va_args U) (w : world U) :
  log_call vformat line_max abort_on_fatal m tu cs va w =
  if Z.max (_ZF_LOG_LEVEL tu) (_zf_log_output_lvl (globals w))
     <=? macro_level m
  then match va w with
       | (Returned v, w1) =>
           write_line vformat line_max abort_on_fatal
             (call_site_metadata tu cs) (macro_level m) (_ZF_LOG_TAG tu)
             (fst v) (snd v) w1
       | (Aborted, w1) => (Aborted, w1)
       end
  else (Returned tt, w).
Proof.
  unfold log_call. rewrite ZF_LOG_filter.
  destruct (Z.max _ _ <=? macro_level m); [|reflexivity].
  unfold write_stage, call_site_metadata, bind.
  destruct (NDEBUG tu); destruct (va w) as [[v|] w1]; reflexivity.
Qed.

Lemma log_call_emitted m tu cs (va : va_args U) (w w1 : world U) fmt args :
  Z.max (_ZF_LOG_LEVEL tu) (_zf_log_output_lvl (globals w)) <= macro_level m ->
  va w = (Returned (fmt, args), w1) ->
  log_call vformat line_max abort_on_fatal m tu cs va w =
  (if abort_on_fatal && (macro_level m =? ZF_LOG_FATAL)
   then Aborted else Returned tt,
   snd (dispatch (macro_level m)
          (format_line line_max (call_site_metadata tu cs)
             (effective_tag (tag_prefix (globals w1)) (_ZF_LOG_TAG tu))
             (vformat fmt args)) w1)).
Proof.
  intros Hge Hva. rewrite log_call_filter, Hva.
  destruct (Z.leb_spec
              (Z.max (_ZF_LOG_LEVEL tu) (_zf_log_output_lvl (globals w)))
              (macro_level m)); [|lia].
  apply write_line_run.
Qed.




Lemma set_tag_prefix_run prefix (w : world U) :
  fst (zf_log_set_tag_prefix prefix w) = Returned tt
  /\ tag_prefix (globals (snd (zf_log_set_tag_prefix prefix w))) = prefix
  /\ _zf_log_output_lvl (globals (snd (zf_log_set_tag_prefix prefix w)))
     = _zf_log_output_lvl (globals w)
  /\ output_callback (globals (snd (zf_log_set_tag_prefix prefix w)))
     = output_callback (globals w)
  /\ sink_calls (snd (zf_log_set_tag_prefix prefix w)) = sink_calls w.
Proof. repeat split. Qed.

Lemma set_output_level_run lvl (w : world U) :
  fst (zf_log_set_output_level lvl w) = Returned tt
  /\ _zf_log_output_lvl (globals (snd (zf_log_set_output_level lvl w))) = lvl
  /\ sink_calls (snd (zf_log_set_output_level lvl w)) = sink_calls w.
Proof. repeat split. Qed.

(** C7.  With a prefix [p] that is neither null nor empty the effective
    tag of a tag [t] is [p ++ "." ++ t]; with no prefix (null or empty) it
    is [t]; with no tag it is the prefix, or nothing when there is no
    prefix either.  The write function resolves the tag from the prefix in
    force when it runs: right after [zf_log_set_tag_prefix prefix], from
    any earlier state, the line of the next statement is built from
    [prefix]. *)
Theorem effective_tag_resolution :
  (forall p t, p <> "" -> effective_tag (Some p) (Some t) = p ++ "." ++ t)
  /\ (forall t, effective_tag None (Some t) = t
                /\ effective_tag (Some "") (Some t) = t)
  /\ (forall p, p <> "" -> effective_tag (Some p) None = p)
  /\ (effective_tag None None = "" /\ effective_tag (Some "") None = "")
  /\ (forall prefix m tu cs fmt args (w : world U) cb,
        Z.max (_ZF_LOG_LEVEL tu) (_zf_log_output_lvl (globals w))
          <= macro_level m ->
        output_callback (globals w) = Some cb ->
        let line :=
          format_line line_max (call_site_metadata tu cs)
            (effective_tag prefix (_ZF_LOG_TAG tu)) (vformat fmt args) in
        sink_calls
          (snd (bind (zf_log_set_tag_prefix prefix)
                  (fun _ => log_call vformat line_max abort_on_fatal
                              m tu cs (ret (fmt, args))) w))
        = (sink_calls w ++ [ {| sink_cb := cb; sink_lvl := macro_level m;
                                sink_s := line ++ EOL ++ NUL;
                                sink_len := String.length line |} ])%list).
Proof.
  split; [intros [|c p] t Hp; [congruence | reflexivity]|].
  split; [intro t; split; reflexivity|].
  split; [intros [|c p] Hp; [congruence | reflexivity]|].
  split; [split; reflexivity|].
  intros prefix m tu cs fmt args w cb Hge Hcb line.
  unfold bind at 1.
  destruct (zf_log_set_tag_prefix prefix w) as [o w'] eqn:E.
  pose proof (set_tag_prefix_run prefix w) as (Ho & Hp & Hl & Hc & Hs).
  rewrite E in Ho, Hp, Hl, Hc, Hs. simpl in Ho, Hp, Hl, Hc, Hs. subst o.
  rewrite (log_call_emitted m tu cs (ret (fmt, args)) w' w' fmt args)
    by first [rewrite Hl; exact Hge | reflexivity].
  simpl snd. rewrite dispatch_registered with (cb := cb) by congruence.
  rewrite Hp, Hs. reflexivity.
Qed.


(** C9.  A log statement ends the process only through an argument
    expression that does so itself, or on the FATAL path: then the macro
    is [ZF_LOGF], the statement passed both filters, and the process state
    at the abort is the one left by the dispatch of the FATAL line.  So a
    statement below FATAL whose arguments return always returns. *)
Theorem only_fatal_path_may_abort :
  forall m tu cs (va : va_args U) (w : world U),
    (fst (log_call vformat line_max abort_on_fatal m tu cs va w) = Aborted ->
     fst (va w) = Aborted
     \/ (m = LOGF /\ abort_on_fatal = true
         /\ Z.max (_ZF_LOG_LEVEL tu) (_zf_log_output_lvl (globals w))
            <= ZF_LOG_FATAL
         /\ exists fmt args w1,
              va w = (Returned (fmt, args), w1)
              /\ snd (log_call vformat line_max abort_on_fatal m tu cs va w)
                 = snd (dispatch ZF_LOG_FATAL
                          (format_line line_max (call_site_metadata tu cs)
                             (effective_tag (tag_prefix (globals w1))
                                (_ZF_LOG_TAG tu))
                             (vformat fmt args)) w1)))
    /\ (macro_level m < ZF_LOG_FATAL ->
        fst (va w) <> Aborted ->
        fst (log_call vformat line_max abort_on_fatal m tu cs va w)
        = Returned tt).
Proof.
  intros m tu cs va w. rewrite log_call_filter.
  destruct (Z.leb_spec
              (Z.max (_ZF_LOG_LEVEL tu) (_zf_log_output_lvl (globals w)))
              (macro_level m)) as [Hge|Hlt].
  - destruct (va w) as [[[fmt args]|] w1] eqn:Hva; cbn [fst snd].
    + rewrite !write_line_run. cbn [fst snd]. split.
      * intro Hab. right.
        destruct abort_on_fatal; [|discriminate]. simpl in Hab.
        destruct (Z.eqb_spec (macro_level m) ZF_LOG_FATAL) as [Hm|];
          [|discriminate].
        assert (m = LOGF) by (destruct m; (discriminate || reflexivity)).
        subst m. repeat split; [exact Hge|].
        exists fmt, args, w1. split; reflexivity.
      * intros Hlt _.
        destruct (Z.eqb_spec (macro_level m) ZF_LOG_FATAL) as [Hm|];
          [lia|].
        now rewrite andb_false_r.
    + split; [intros _; now left | intros _ Hne; now destruct Hne].
  - simpl. split; [discriminate | reflexivity].
Qed.

End ImplementationFacts.

(** * The header on the worked example *)

(** A DEBUG statement in a unit whose floor is INFO: the counter that its
    argument would bump stays at 0. *)
Lemma compiled_out_statement_is_noop_witness :
  ZF_LOG (_zf_log_write_d simple_vformat 64 true)
         (_zf_log_write simple_vformat 64 true)
         LOGD net_unit main_42 pid_args app_world
  = (Returned tt, app_world).
Proof.
  apply (compiled_out_statement_is_noop nat
           (_zf_log_write_d simple_vformat 64 true)
           (_zf_log_write simple_vformat 64 true)
           LOGD net_unit main_42 pid_args app_world).
  reflexivity.
Defined.

(** In every build, at every output level, a statement either does
    nothing or hands its level to a write function: WARN passes floor INFO
    and output level DEBUG and is written once; INFO is stopped by output
    level WARN and DEBUG by the floor, each without evaluating its aborting
    arguments. *)
Lemma log_reaches_write_iff_both_thresholds_witness :
  ZF_LOG recording_write_d recording_write LOGW net_unit main_42
    (ret ("w", [])) (fresh_world ZF_LOG_DEBUG)
  = (Returned tt,
     {| user := [ZF_LOG_WARN]; globals := globals (fresh_world ZF_LOG_DEBUG);
        sink_calls := [] |})
  /\ ZF_LOG recording_write_d recording_write LOGI net_unit main_42
       fatal_args (fresh_world ZF_LOG_WARN)
     = (Returned tt, fresh_world ZF_LOG_WARN)
  /\ ZF_LOG recording_write_d recording_write LOGD net_unit main_42
       fatal_args (fresh_world 0)
     = (Returned tt, fresh_world 0).
Proof.
  split; [|split].
  - exact (proj1 (log_reaches_write_iff_both_thresholds (list Z)
                    recording_write_d recording_write LOGW net_unit main_42
                    (ret ("w", [])) (fresh_world ZF_LOG_DEBUG))).
  - exact (proj1 (log_reaches_write_iff_both_thresholds (list Z)
                    recording_write_d recording_write LOGI net_unit main_42
                    fatal_args (fresh_world ZF_LOG_WARN))).
  - exact (proj1 (log_reaches_write_iff_both_thresholds (list Z)
                    recording_write_d recording_write LOGD net_unit main_42
                    fatal_args (fresh_world 0))).
Defined.

(** Floor INFO, output level lowered to VERBOSE: WARN is written once,
    DEBUG stays a no-op whose aborting arguments are not evaluated, and
    [ZF_LOG_OUTPUT] is what it is at output level INFO. *)
Lemma output_level_below_floor_is_floor_witness :
  ZF_LOG recording_write_d recording_write LOGW net_unit main_42
    (ret ("w", [])) (fresh_world ZF_LOG_VERBOSE)
  = (Returned tt,
     {| user := [ZF_LOG_WARN];
        globals := globals (fresh_world ZF_LOG_VERBOSE);
        sink_calls := [] |})
  /\ ZF_LOG recording_write_d recording_write LOGD net_unit main_42
       fatal_args (fresh_world ZF_LOG_VERBOSE)
     = (Returned tt, fresh_world ZF_LOG_VERBOSE)
  /\ ZF_LOG_OUTPUT net_unit ZF_LOG_DEBUG (fresh_world ZF_LOG_VERBOSE)
     = ZF_LOG_OUTPUT net_unit ZF_LOG_DEBUG (fresh_world ZF_LOG_INFO).
Proof.
  pose proof (output_level_below_floor_is_floor (list Z)
                recording_write_d recording_write net_unit ZF_LOG_VERBOSE
                (fresh_world ZF_LOG_VERBOSE) (fresh_world ZF_LOG_INFO)
                eq_refl eq_refl eq_refl)
    as (Hsame & _ & Hcall).
  split; [exact (Hcall LOGW main_42 (ret ("w", [])))|].
  split; [exact (Hcall LOGD main_42 fatal_args)|].
  apply Hsame.
Defined.

(** A WARN statement in the debug unit with prefix ["APP"] and in the
    release unit without prefix: same floor, same output level, same
    decision. *)
Lemma emit_decision_depends_on_levels_only_witness :
  ZF_LOG_OUTPUT net_unit (macro_level LOGW) app_world
  = ZF_LOG_OUTPUT net_unit_release (macro_level LOGW)
      (snd (zf_log_set_tag_prefix None app_world)).
Proof.
  apply (emit_decision_depends_on_levels_only nat
           (_zf_log_write_d simple_vformat 64 true)
           (_zf_log_write simple_vformat 64 true)
           LOGW net_unit net_unit_release main_42 main_42
           pid_args (ret ("x", [])) app_world
           (snd (zf_log_set_tag_prefix None app_world))).
  - reflexivity.
  - reflexivity.
Defined.

(** After [zf_log_set_output_level(ZF_LOG_NONE)] a FATAL and an ERROR
    statement change nothing. *)
Lemma NONE_is_top_and_silences_all_witness :
  run_statements (_zf_log_write_d simple_vformat 64 true)
                 (_zf_log_write simple_vformat 64 true)
                 [(LOGF, net_unit, main_42, pid_args);
                  (LOGE, net_unit_release, main_42, pid_args)]
                 (snd (zf_log_set_output_level ZF_LOG_NONE app_world))
  = (Returned tt, snd (zf_log_set_output_level ZF_LOG_NONE app_world)).
Proof.
  apply (NONE_is_top_and_silences_all nat
           (_zf_log_write_d simple_vformat 64 true)
           (_zf_log_write simple_vformat 64 true)).
  reflexivity.
Defined.

(** * The modelled implementation on the worked example *)

(** The tag compositions of section 8. *)
Example tag_composition :
  effective_tag (Some "APP") (Some "NET") = "APP.NET"
  /\ effective_tag None (Some "NET") = "NET"
  /\ effective_tag (Some "APP") None = "APP".
Proof. repeat split. Qed.

(** Floor INFO, output level untouched: a DEBUG statement leaves no trace
    and does not even evaluate its arguments; an INFO statement delivers one
    line that ends in the formatted message. *)
Example floor_INFO_scenario :
  log_call simple_vformat 64 false LOGD net_unit main_42 pid_args app_world
  = (Returned tt, app_world)
  /\ log_call simple_vformat 64 false LOGI net_unit main_42 pid_args app_world
     = (Returned tt,
        {| user := 1%nat; globals := globals app_world;
           sink_calls :=
             [ {| sink_cb := 7%N; sink_lvl := ZF_LOG_INFO;
                  sink_s := "APP.NET main main.c:42 started pid=42"
                            ++ EOL ++ NUL;
                  sink_len := 37 |} ] |}).
Proof. split; reflexivity. Qed.

(** Floor INFO, output level raised to ERROR: WARN is filtered at run time
    (its arguments are not evaluated either), ERROR is delivered. *)
Example raised_output_level_scenario :
  let w := snd (zf_log_set_output_level ZF_LOG_ERROR app_world) in
  log_call simple_vformat 64 false LOGW net_unit main_42 pid_args w
  = (Returned tt, w)
  /\ sink_calls
       (snd (log_call simple_vformat 64 false LOGE net_unit_release main_42
               pid_args w))
     = [ {| sink_cb := 7%N; sink_lvl := ZF_LOG_ERROR;
            sink_s := "APP.NET started pid=42" ++ EOL ++ NUL;
            sink_len := 22 |} ].
Proof. split; reflexivity. Qed.

(** The sink is replaced between two statements: the first line goes to
    callback 7, the second to callback 9, none to both; with the sink
    removed a statement is formatted and dropped. *)
Example replaced_sink_scenario :
  sink_calls
    (snd (bind (log_call simple_vformat 64 false LOGI net_unit_release
                  main_42 (ret ("one", [])))
            (fun _ =>
               bind (zf_log_set_output_callback (Some 9%N))
                 (fun _ => log_call simple_vformat 64 false LOGI
                             net_unit_release main_42 (ret ("two", []))))
            app_world))
  = [ {| sink_cb := 7%N; sink_lvl := ZF_LOG_INFO;
         sink_s := "APP.NET one" ++ EOL ++ NUL; sink_len := 11 |};
      {| sink_cb := 9%N; sink_lvl := ZF_LOG_INFO;
         sink_s := "APP.NET two" ++ EOL ++ NUL; sink_len := 11 |} ]
  /\ log_call simple_vformat 64 false LOGI net_unit_release main_42
       (ret ("three", []))
       (snd (zf_log_set_output_callback None app_world))
     = (Returned tt, snd (zf_log_set_output_callback None app_world)).
Proof. split; reflexivity. Qed.

(** A text that does not fit.  With a 16-byte line buffer the ERROR
    statement passes both filters and the callback is invoked once, with
    the first 16 bytes of the text: the line stops before the formatted
    message ["started pid=42"]. *)
Example line_cut_before_message :
  Z.max (_ZF_LOG_LEVEL net_unit) (_zf_log_output_lvl (globals app_world))
    <= macro_level LOGE
  /\ output_callback (globals app_world) = Some 7%N
  /\ sink_calls
       (snd (log_call simple_vformat 16 false LOGE net_unit main_42
               pid_args app_world))
     = [ {| sink_cb := 7%N; sink_lvl := ZF_LOG_ERROR;
            sink_s := "APP.NET main mai" ++ EOL ++ NUL;
            sink_len := 16 |} ]
  /\ ~ contains ("APP.NET main mai" ++ EOL ++ NUL)
         (simple_vformat "started pid=%d" [ArgInt 42]).
Proof.
  split; [cbv; discriminate|].
  split; [reflexivity|].
  split; [reflexivity|].
  apply not_occurs_not_contains. reflexivity.
Qed.

(** With a 12-byte line buffer the line of a build without [NDEBUG] has no
    room left for the [file:line] of the call site. *)
Example line_cut_before_location :
  NDEBUG net_unit = false
  /\ Z.max (_ZF_LOG_LEVEL net_unit) (_zf_log_output_lvl (globals app_world))
     <= macro_level LOGW
  /\ sink_calls
       (snd (log_call simple_vformat 12 false LOGW net_unit main_42
               pid_args app_world))
     = [ {| sink_cb := 7%N; sink_lvl := ZF_LOG_WARN;
            sink_s := "APP.NET main" ++ EOL ++ NUL;
            sink_len := 12 |} ]
  /\ ~ contains ("APP.NET main" ++ EOL ++ NUL) (location main_42).
Proof.
  split; [reflexivity|].
  split; [cbv; discriminate|].
  split; [reflexivity|].
  apply not_occurs_not_contains. reflexivity.
Qed.


(** The prefix changes from ["APP"] to ["SRV"]: the next line says
    ["SRV.NET"]. *)
Lemma effective_tag_resolution_witness :
  sink_calls
    (snd (bind (zf_log_set_tag_prefix (Some "SRV"))
            (fun _ => log_call simple_vformat 64 false LOGI net_unit main_42
                        (ret ("up", [])))
            app_world))
  = [ {| sink_cb := 7%N; sink_lvl := ZF_LOG_INFO;
         sink_s := "SRV.NET main main.c:42 up" ++ EOL ++ NUL;
         sink_len := 25 |} ].
Proof.
  refine (proj2 (proj2 (proj2 (proj2
            (effective_tag_resolution nat simple_vformat 64 false))))
            (Some "SRV") LOGI net_unit main_42 "up" [] app_world 7%N _ _).
  - cbv. discriminate.
  - reflexivity.
Defined.


(** With abort-after-FATAL in force an ERROR statement returns, and the
    FATAL statement has delivered its line when the process ends. *)
Lemma only_fatal_path_may_abort_witness :
  fst (log_call simple_vformat 64 true LOGE net_unit main_42
         pid_args app_world) = Returned tt
  /\ sink_calls
       (snd (log_call simple_vformat 64 true LOGF net_unit main_42
               pid_args app_world))
     = [ {| sink_cb := 7%N; sink_lvl := ZF_LOG_FATAL;
            sink_s := "APP.NET main main.c:42 started pid=42" ++ EOL ++ NUL;
            sink_len := 37 |} ].
Proof.
  split.
  - refine (proj2 (only_fatal_path_may_abort nat simple_vformat 64 true
                     LOGE net_unit main_42 pid_args app_world) _ _).
    + reflexivity.
    + discriminate.
  - destruct (proj1 (only_fatal_path_may_abort nat simple_vformat 64 true
                       LOGF net_unit main_42 pid_args app_world)
                eq_refl) as [Hargs | (_ & _ & _ & fmt & args & w1 & Hva & Hw)].
    + discriminate Hargs.
    + rewrite Hw. injection Hva as <- <- <-. reflexivity.
Defined.

(** * Further properties of the header *)

Section HeaderCoverage.

Variable U : Type.
Variable write_d :
  string -> string -> Z -> option string -> string -> list fmt_arg -> M U unit.
Variable write :
  Z -> option string -> string -> list fmt_arg -> M U unit.

Lemma compiled_out_skip m tu cs (va : va_args U) (w : world U) :
  ZF_LOG_ALLOW tu (macro_level m) = false ->
  ZF_LOG write_d write m tu cs va w = (Returned tt, w).
Proof.
  intro Hout. rewrite ZF_LOG_expand, Hout. apply _ZF_LOG_UNUSED_skip.
Qed.

(** X1.  A statement below the run-time output level does nothing, also
    when it is compiled in: [_ZF_LOG_IMP] tests [ZF_LOG_OUTPUT] before the
    call, so the argument expressions are not evaluated and the state is
    the one before the statement. *)
Theorem runtime_filtered_statement_skips_arguments :
  forall m tu cs (va : va_args U) (w : world U),
    macro_level m < _zf_log_output_lvl (globals w) ->
    ZF_LOG write_d write m tu cs va w = (Returned tt, w).
Proof.
  intros m tu cs va w Hlt. rewrite ZF_LOG_filter.
  destruct (Z.leb_spec
              (Z.max (_ZF_LOG_LEVEL tu) (_zf_log_output_lvl (globals w)))
              (macro_level m)); [lia | reflexivity].
Qed.

(** X2.  The [#if] around each macro removes code without changing what
    the statement does: every macro behaves as [_ZF_LOG_IMP] at its level,
    because [_ZF_LOG_IMP] at a level below the floor behaves as
    [_ZF_LOG_UNUSED]. *)
Theorem elision_preserves_behaviour :
  (forall m tu cs (va : va_args U) (w : world U),
      ZF_LOG write_d write m tu cs va w =
      _ZF_LOG_IMP write_d write tu cs (macro_level m) (_ZF_LOG_TAG tu) va w)
  /\ (forall tu cs lvl tag (va : va_args U) (w : world U),
        ZF_LOG_ALLOW tu lvl = false ->
        _ZF_LOG_IMP write_d write tu cs lvl tag va w = _ZF_LOG_UNUSED va w).
Proof.
  assert (Himp : forall tu cs lvl tag (va : va_args U) (w : world U),
             ZF_LOG_ALLOW tu lvl = false ->
             _ZF_LOG_IMP write_d write tu cs lvl tag va w
             = _ZF_LOG_UNUSED va w).
  { intros tu cs lvl tag va w Hout.
    unfold _ZF_LOG_IMP, ZF_LOG_OUTPUT. rewrite Hout. reflexivity. }
  split; [|exact Himp].
  intros m tu cs va w. rewrite ZF_LOG_expand.
  destruct (ZF_LOG_ALLOW tu (macro_level m)) eqn:E; [reflexivity|].
  symmetry. apply Himp, E.
Qed.

(** X3.  What is allowed is upward closed in the level: if a level passes
    [ZF_LOG_ALLOW], or [ZF_LOG_OUTPUT] in some state, so does every higher
    level; so each [ZF_LOG_ALLOW_x] and [ZF_LOG_OUTPUT_x] implies the one of
    the next more severe level. *)
Theorem allowed_levels_upward_closed :
  (forall tu lvl lvl' (w : world U),
      lvl <= lvl' ->
      (ZF_LOG_ALLOW tu lvl = true -> ZF_LOG_ALLOW tu lvl' = true)
      /\ (ZF_LOG_OUTPUT tu lvl w = true -> ZF_LOG_OUTPUT tu lvl' w = true))
  /\ (forall tu,
        implb (ZF_LOG_ALLOW_VERBOSE tu) (ZF_LOG_ALLOW_DEBUG tu) = true
        /\ implb (ZF_LOG_ALLOW_DEBUG tu) (ZF_LOG_ALLOW_INFO tu) = true
        /\ implb (ZF_LOG_ALLOW_INFO tu) (ZF_LOG_ALLOW_WARN tu) = true
        /\ implb (ZF_LOG_ALLOW_WARN tu) (ZF_LOG_ALLOW_ERROR tu) = true
        /\ implb (ZF_LOG_ALLOW_ERROR tu) (ZF_LOG_ALLOW_FATAL tu) = true)
  /\ (forall tu (w : world U),
        implb (ZF_LOG_OUTPUT_VERBOSE U tu w) (ZF_LOG_OUTPUT_DEBUG U tu w) = true
        /\ implb (ZF_LOG_OUTPUT_DEBUG U tu w) (ZF_LOG_OUTPUT_INFO U tu w) = true
        /\ implb (ZF_LOG_OUTPUT_INFO U tu w) (ZF_LOG_OUTPUT_WARN U tu w) = true
        /\ implb (ZF_LOG_OUTPUT_WARN U tu w) (ZF_LOG_OUTPUT_ERROR U tu w) = true
        /\ implb (ZF_LOG_OUTPUT_ERROR U tu w) (ZF_LOG_OUTPUT_FATAL U tu w)
           = true).
Proof.
  assert (Hallow : forall tu lvl lvl',
             lvl <= lvl' ->
             implb (ZF_LOG_ALLOW tu lvl) (ZF_LOG_ALLOW tu lvl') = true).
  { intros tu lvl lvl' Hle. rewrite !ZF_LOG_ALLOW_ge.
    destruct (Z.leb_spec (_ZF_LOG_LEVEL tu) lvl);
      destruct (Z.leb_spec (_ZF_LOG_LEVEL tu) lvl'); simpl;
      try reflexivity; lia. }
  assert (Houtput : forall tu lvl lvl' (w : world U),
             lvl <= lvl' ->
             implb (ZF_LOG_OUTPUT tu lvl w) (ZF_LOG_OUTPUT tu lvl' w) = true).
  { intros tu lvl lvl' w Hle. rewrite !ZF_LOG_OUTPUT_max.
    destruct (Z.leb_spec
                (Z.max (_ZF_LOG_LEVEL tu) (_zf_log_output_lvl (globals w)))
                lvl);
      destruct (Z.leb_spec
                  (Z.max (_ZF_LOG_LEVEL tu) (_zf_log_output_lvl (globals w)))
                  lvl'); simpl; try reflexivity; lia. }
  split; [|split].
  - intros tu lvl lvl' w Hle. split; intro Hyes.
    + specialize (Hallow tu lvl lvl' Hle). rewrite Hyes in Hallow.
      exact Hallow.
    + specialize (Houtput tu lvl lvl' w Hle). rewrite Hyes in Houtput.
      exact Houtput.
  - intro tu. repeat split; apply Hallow; cbv; discriminate.
  - intros tu w. repeat split; apply Houtput; cbv; discriminate.
Qed.

(** X4.  Lowering the output level never suppresses a statement: what
    passes [ZF_LOG_OUTPUT] under an output level passes it under every
    lower one, and a statement that would reach the write function still
    reaches it. *)
Theorem lower_output_level_never_suppresses :
  forall tu (w_low w_high : world U),
    _zf_log_output_lvl (globals w_low) <= _zf_log_output_lvl (globals w_high) ->
    (forall lvl,
        ZF_LOG_OUTPUT tu lvl w_high = true -> ZF_LOG_OUTPUT tu lvl w_low = true)
    /\ (forall m cs (va : va_args U),
          ZF_LOG_OUTPUT tu (macro_level m) w_high = true ->
          ZF_LOG write_d write m tu cs va w_low =
          write_stage write_d write tu cs (macro_level m) (_ZF_LOG_TAG tu)
            va w_low).
Proof.
  intros tu w_low w_high Hle.
  assert (Hout : forall lvl,
             ZF_LOG_OUTPUT tu lvl w_high = true ->
             ZF_LOG_OUTPUT tu lvl w_low = true).
  { intro lvl. rewrite !ZF_LOG_OUTPUT_max, !Z.leb_le. lia. }
  split; [exact Hout|].
  intros m cs va Hhigh. apply Hout in Hhigh.
  rewrite ZF_LOG_filter, <- ZF_LOG_OUTPUT_max, Hhigh. reflexivity.
Qed.

(** X5.  In a unit that defines neither [ZF_LOG_LEVEL] nor
    [ZF_LOG_DEF_LEVEL], [ZF_LOGV] is compiled out in every build, [ZF_LOGD]
    is compiled out exactly with [NDEBUG], and [ZF_LOGI] to [ZF_LOGF] are
    always compiled in. *)
Theorem default_floor_by_build_mode :
  forall (ndebug : bool) (tag dtag : option string) m cs
         (va : va_args U) (w : world U),
    let tu := {| ZF_LOG_LEVEL := None; ZF_LOG_DEF_LEVEL := None;
                 NDEBUG := ndebug; ZF_LOG_TAG := tag;
                 ZF_LOG_DEF_TAG := dtag |} in
    ZF_LOG_ALLOW tu (macro_level m)
    = match m with
      | LOGV => false
      | LOGD => negb ndebug
      | _ => true
      end
    /\ ZF_LOG write_d write LOGV tu cs va w = (Returned tt, w)
    /\ (if ndebug
        then ZF_LOG write_d write LOGD tu cs va w = (Returned tt, w)
        else ZF_LOG write_d write LOGD tu cs va w =
             _ZF_LOG_IMP write_d write tu cs ZF_LOG_DEBUG (_ZF_LOG_TAG tu)
               va w).
Proof.
  intros ndebug tag dtag m cs va w tu. split; [|split].
  - destruct ndebug, m; reflexivity.
  - apply compiled_out_skip. destruct ndebug; reflexivity.
  - destruct ndebug.
    + apply compiled_out_skip. reflexivity.
    + reflexivity.
Qed.

(** X6.  Statements that are compiled out can be deleted from a program:
    running a sequence of log statements and running it without those below
    their unit's floor give the same outcome and the same state. *)
Theorem compiled_out_statements_can_be_dropped :
  forall (l : list (log_statement U)) (w : world U),
    run_statements write_d write (filter compiled_in l) w
    = run_statements write_d write l w.
Proof.
  induction l as [|[[[m tu] cs] va] l IH]; intro w; [reflexivity|].
  simpl filter. unfold compiled_in at 1.
  destruct (ZF_LOG_ALLOW tu (macro_level m)) eqn:E.
  - simpl. unfold bind.
    destruct (ZF_LOG write_d write m tu cs va w) as [[[]|] w'];
      [apply IH | reflexivity].
  - simpl run_statements. unfold bind at 1.
    rewrite (compiled_out_skip m tu cs va w E). apply IH.
Qed.

(** X7.  A floor above [ZF_LOG_FATAL] (such as [ZF_LOG_NONE]) silences a
    unit for good: a program made of statements from such units does
    nothing, whatever the run-time output level is. *)
Theorem floor_above_FATAL_silences_program :
  forall (l : list (log_statement U)) (w : world U),
    Forall (fun s => ZF_LOG_FATAL < statement_floor s) l ->
    run_statements write_d write l w = (Returned tt, w).
Proof.
  intros l w Hall. induction Hall as [|[[[m tu] cs] va] l Hfloor _ IH];
    [reflexivity|].
  simpl in Hfloor. simpl run_statements. unfold bind at 1.
  rewrite compiled_out_skip; [exact IH|].
  rewrite ZF_LOG_ALLOW_ge.
  pose proof (macro_level_range m) as [_ Hle].
  destruct (Z.leb_spec (_ZF_LOG_LEVEL tu) (macro_level m)); [lia|reflexivity].
Qed.

(** X8.  An output level at or above the floor overrides it: then
    [ZF_LOG_OUTPUT] is the comparison with the output level alone, and a
    statement evaluates its arguments and calls the write function exactly
    when its level is at or above the output level. *)
Theorem output_level_at_or_above_floor_decides :
  forall tu (w : world U),
    _ZF_LOG_LEVEL tu <= _zf_log_output_lvl (globals w) ->
    (forall lvl,
        ZF_LOG_OUTPUT tu lvl w = (lvl >=? _zf_log_output_lvl (globals w)))
    /\ (forall m cs (va : va_args U),
          ZF_LOG write_d write m tu cs va w =
          if macro_level m >=? _zf_log_output_lvl (globals w)
          then match va w with
               | (Returned (fmt, args), w1) =>
                   if NDEBUG tu
                   then write (macro_level m) (_ZF_LOG_TAG tu) fmt args w1
                   else write_d (__FUNCTION__ cs)
                          (__FILE__ cs ++ ":" ++ _ZF_LOG_STRINGIFY (__LINE__ cs))
                          (macro_level m) (_ZF_LOG_TAG tu) fmt args w1
               | (Aborted, w1) => (Aborted, w1)
               end
          else (Returned tt, w)).
Proof.
  intros tu w Hle. split.
  - intro lvl. rewrite ZF_LOG_OUTPUT_max, Z.geb_leb, Z.max_r by lia.
    reflexivity.
  - intros m cs va.
    rewrite ZF_LOG_filter, write_stage_call, Z.geb_leb, Z.max_r by lia.
    reflexivity.
Qed.

(** X10.  A statement sees the configuration of its unit only through the
    resolved floor, the resolved tag and [NDEBUG]: units that agree on the
    three behave alike, whichever of [ZF_LOG_LEVEL], [ZF_LOG_DEF_LEVEL],
    [ZF_LOG_TAG] and [ZF_LOG_DEF_TAG] they define. *)
Theorem configuration_seen_through_resolved_values :
  forall m tu1 tu2 cs (va : va_args U) (w : world U),
    _ZF_LOG_LEVEL tu1 = _ZF_LOG_LEVEL tu2 ->
    _ZF_LOG_TAG tu1 = _ZF_LOG_TAG tu2 ->
    NDEBUG tu1 = NDEBUG tu2 ->
    ZF_LOG write_d write m tu1 cs va w = ZF_LOG write_d write m tu2 cs va w.
Proof.
  intros m tu1 tu2 cs va w Hfloor Htag Hmode.
  rewrite !ZF_LOG_filter, Hfloor, Htag.
  unfold write_stage. rewrite Hmode. reflexivity.
Qed.

(** X11.  The guard of the usage note agrees with the statement it
    protects.  When [ZF_LOG_OUTPUT_x] fails the block is skipped, its
    preparation included; when it holds and the preparation returns without
    changing the output level, the statement inside reaches the write
    function with the arguments prepared for it. *)
Theorem output_guard_agrees_with_statement :
  forall (A : Type) m tu cs (prepare : M U A) (args : A -> va_args U)
         (w : world U),
    (ZF_LOG_OUTPUT tu (macro_level m) w = false ->
     output_guarded_block write_d write m tu cs prepare args w
     = (Returned tt, w))
    /\ (ZF_LOG_OUTPUT tu (macro_level m) w = true ->
        forall a w1,
          prepare w = (Returned a, w1) ->
          _zf_log_output_lvl (globals w1) = _zf_log_output_lvl (globals w) ->
          output_guarded_block write_d write m tu cs prepare args w
          = write_stage write_d write tu cs (macro_level m) (_ZF_LOG_TAG tu)
              (args a) w1).
Proof.
  intros A m tu cs prepare args w. unfold output_guarded_block. split.
  - intros ->. reflexivity.
  - intros Hguard a w1 Hprep Hsame. rewrite Hguard.
    unfold bind. rewrite Hprep.
    rewrite ZF_LOG_filter. rewrite ZF_LOG_OUTPUT_max in Hguard.
    rewrite Hsame, Hguard. reflexivity.
Qed.

(** X12.  A statement that passes the filter evaluates its arguments once
    and then calls one write function once, in the state the evaluation
    left: [_zf_log_write] with [NDEBUG], [_zf_log_write_d] with the function
    name and [file:line] otherwise, each with the macro's level, the unit's
    tag and the argument values.  The filter is decided before the
    arguments are evaluated, and arguments that end the process keep the
    write function from being called. *)
Theorem emitted_statement_calls_write_once :
  forall m tu cs (va : va_args U) (w : world U),
    ZF_LOG_OUTPUT tu (macro_level m) w = true ->
    ZF_LOG write_d write m tu cs va w =
    match va w with
    | (Returned (fmt, args), w1) =>
        if NDEBUG tu
        then write (macro_level m) (_ZF_LOG_TAG tu) fmt args w1
        else write_d (__FUNCTION__ cs)
               (__FILE__ cs ++ ":" ++ _ZF_LOG_STRINGIFY (__LINE__ cs))
               (macro_level m) (_ZF_LOG_TAG tu) fmt args w1
    | (Aborted, w1) => (Aborted, w1)
    end.
Proof.
  intros m tu cs va w Hout.
  rewrite ZF_LOG_filter, <- ZF_LOG_OUTPUT_max, Hout.
  unfold write_stage, bind, location.
  destruct (NDEBUG tu); destruct (va w) as [[[fmt args]|] w1]; reflexivity.
Qed.

End HeaderCoverage.

(** * The location string *)

Section Location.

Lemma digits_have_no_colon (d : Decimal.uint) :
  occurs_in ":" (NilEmpty.string_of_uint d) = false.
Proof.
  induction d; simpl NilEmpty.string_of_uint;
    [reflexivity | rewrite occurs_in_unfold, IHd; reflexivity ..].
Qed.

Lemma stringify_has_no_colon (n : nat) :
  occurs_in ":" (_ZF_LOG_STRINGIFY n) = false.
Proof.
  unfold _ZF_LOG_STRINGIFY, NilZero.string_of_uint.
  destruct (Nat.to_uint n) eqn:E; try reflexivity;
    rewrite <- E; rewrite E; apply digits_have_no_colon.
Qed.

(** The spelling of a line number reads back as that number. *)
Lemma stringify_reads_back (n : nat) :
  option_map Nat.of_uint (NilZero.uint_of_string (_ZF_LOG_STRINGIFY n))
  = Some n.
Proof.
  unfold _ZF_LOG_STRINGIFY.
  pose proof (DecimalNat.Unsigned.of_to n) as Hn.
  destruct (NilZero.usu_gen (Nat.to_uint n)) as [Hsame | Hzero].
  - rewrite Hsame. simpl. now rewrite Hn.
  - destruct (Nat.to_uint n) eqn:E;
      [simpl in Hn; subst n; reflexivity
      | rewrite NilZero.usu by discriminate; simpl; now rewrite Hn ..].
Qed.

Lemma stringify_injective (n n' : nat) :
  _ZF_LOG_STRINGIFY n = _ZF_LOG_STRINGIFY n' -> n = n'.
Proof.
  intro Heq. pose proof (stringify_reads_back n) as Hn.
  rewrite Heq, stringify_reads_back in Hn. congruence.
Qed.

(** Two texts that end in a colon-free part after a colon split at the
    same place. *)
Lemma split_at_last_colon (a b x y : string) :
  occurs_in ":" x = false ->
  occurs_in ":" y = false ->
  a ++ ":" ++ x = b ++ ":" ++ y ->
  a = b /\ x = y.
Proof.
  intros Hx Hy. revert b.
  induction a as [|c a IH]; intros [|c' b] Heq; simpl in Heq.
  - injection Heq as ->. now split.
  - injection Heq as _ Hxy. exfalso.
    assert (contains x ":") as Hc by (exists b, y; exact Hxy).
    apply occurs_in_complete in Hc. congruence.
  - injection Heq as _ Hxy. exfalso.
    assert (contains y ":") as Hc by (exists a, x; symmetry; exact Hxy).
    apply occurs_in_complete in Hc. congruence.
  - injection Heq as -> Hrest. destruct (IH b Hrest) as [-> ->]. now split.
Qed.

(** X9.  The location string [__FILE__ ":" _ZF_LOG_STRINGIFY(__LINE__)]
    identifies the file and the line: two call sites with the same location
    string are in the same file at the same line, also when file names
    contain colons. *)
Theorem location_identifies_file_and_line :
  forall cs cs',
    location cs = location cs' ->
    __FILE__ cs = __FILE__ cs' /\ __LINE__ cs = __LINE__ cs'.
Proof.
  intros cs cs' Heq. unfold location in Heq.
  apply split_at_last_colon in Heq; try apply stringify_has_no_colon.
  destruct Heq as [Hfile Hline]. split; [exact Hfile|].
  apply stringify_injective, Hline.
Qed.

End Location.

(** * The further properties on worked examples *)

(** Output level ERROR: a WARN statement is skipped although compiled in,
    and its aborting argument never runs. *)
Lemma runtime_filtered_statement_skips_arguments_witness :
  ZF_LOG recording_write_d recording_write LOGW (plain_unit false) main_42
    fatal_args (fresh_world ZF_LOG_ERROR)
  = (Returned tt, fresh_world ZF_LOG_ERROR).
Proof.
  apply (runtime_filtered_statement_skips_arguments (list Z)
           recording_write_d recording_write LOGW (plain_unit false) main_42
           fatal_args (fresh_world ZF_LOG_ERROR)).
  reflexivity.
Defined.

(** INFO passes in a default release build, so WARN does. *)
Lemma allowed_levels_upward_closed_witness :
  ZF_LOG_ALLOW (plain_unit true) ZF_LOG_WARN = true.
Proof.
  refine (proj1 (proj1 (allowed_levels_upward_closed (list Z))
                   (plain_unit true) ZF_LOG_INFO ZF_LOG_WARN
                   (fresh_world 0) _) _).
  - cbv. discriminate.
  - reflexivity.
Defined.

(** ERROR passes at output level WARN, so it is written at output level
    VERBOSE. *)
Lemma lower_output_level_never_suppresses_witness :
  ZF_LOG recording_write_d recording_write LOGE
    (def_level_unit ZF_LOG_DEBUG) main_42 (ret ("e", []))
    (fresh_world ZF_LOG_VERBOSE)
  = (Returned tt,
     {| user := [ZF_LOG_ERROR]; globals := globals (fresh_world ZF_LOG_VERBOSE);
        sink_calls := [] |}).
Proof.
  refine (eq_trans
            (proj2 (lower_output_level_never_suppresses (list Z)
                      recording_write_d recording_write
                      (def_level_unit ZF_LOG_DEBUG)
                      (fresh_world ZF_LOG_VERBOSE) (fresh_world ZF_LOG_WARN) _)
               LOGE main_42 (ret ("e", [])) _) _).
  - cbv. discriminate.
  - reflexivity.
  - reflexivity.
Defined.

(** Two units with floor [ZF_LOG_NONE]: nothing is written at output
    level 0. *)
Lemma floor_above_FATAL_silences_program_witness :
  run_statements recording_write_d recording_write
    [(LOGF, def_level_unit ZF_LOG_NONE, main_42, fatal_args);
     (LOGE, def_level_unit ZF_LOG_NONE, main_42, ret ("e", []))]
    (fresh_world 0)
  = (Returned tt, fresh_world 0).
Proof.
  apply (floor_above_FATAL_silences_program (list Z)
           recording_write_d recording_write).
  constructor; [reflexivity|].
  constructor; [reflexivity|].
  constructor.
Defined.

(** Floor DEBUG, output level WARN: INFO is suppressed without evaluating
    its aborting arguments, WARN is written once. *)
Lemma output_level_at_or_above_floor_decides_witness :
  ZF_LOG recording_write_d recording_write LOGI
    (def_level_unit ZF_LOG_DEBUG) main_42 fatal_args
    (fresh_world ZF_LOG_WARN)
  = (Returned tt, fresh_world ZF_LOG_WARN)
  /\ ZF_LOG recording_write_d recording_write LOGW
       (def_level_unit ZF_LOG_DEBUG) main_42 (ret ("w", []))
       (fresh_world ZF_LOG_WARN)
     = (Returned tt,
        {| user := [ZF_LOG_WARN]; globals := globals (fresh_world ZF_LOG_WARN);
           sink_calls := [] |})
  /\ ZF_LOG_OUTPUT (def_level_unit ZF_LOG_DEBUG) ZF_LOG_INFO
       (fresh_world ZF_LOG_WARN) = false.
Proof.
  pose proof (output_level_at_or_above_floor_decides (list Z)
                recording_write_d recording_write
                (def_level_unit ZF_LOG_DEBUG) (fresh_world ZF_LOG_WARN)
                ltac:(cbv; discriminate))
    as (Hout & Hcall).
  split; [exact (Hcall LOGI main_42 fatal_args)|].
  split; [exact (Hcall LOGW main_42 (ret ("w", [])))|].
  apply Hout.
Defined.

(** Two call sites in different functions of ["main.c"], both at line 42. *)
Lemma location_identifies_file_and_line_witness :
  __FILE__ main_42 = "main.c" /\ __LINE__ main_42 = 42%nat.
Proof.
  apply (location_identifies_file_and_line main_42
           {| __FUNCTION__ := "helper"; __FILE__ := "main.c";
              __LINE__ := 42 |}).
  reflexivity.
Defined.

(** [ZF_LOG_LEVEL] and [ZF_LOG_TAG] in the file, or [ZF_LOG_DEF_LEVEL] and
    [ZF_LOG_DEF_TAG] from the build, with the same values: the same
    statement. *)
Lemma configuration_seen_through_resolved_values_witness :
  ZF_LOG recording_write_d recording_write LOGW net_unit main_42
    (ret ("w", [])) (fresh_world 0)
  = ZF_LOG recording_write_d recording_write LOGW
      (def_level_unit ZF_LOG_INFO) main_42 (ret ("w", [])) (fresh_world 0).
Proof.
  apply (configuration_seen_through_resolved_values (list Z)
           recording_write_d recording_write LOGW net_unit
           (def_level_unit ZF_LOG_INFO) main_42 (ret ("w", []))
           (fresh_world 0)); reflexivity.
Defined.

(** At output level ERROR the DEBUG guard skips a preparation that would
    abort; at output level 0 the guarded INFO statement is written. *)
Lemma output_guard_agrees_with_statement_witness :
  output_guarded_block recording_write_d recording_write LOGD
    (plain_unit false) main_42 abort (fun _ : unit => ret ("d", []))
    (fresh_world ZF_LOG_ERROR)
  = (Returned tt, fresh_world ZF_LOG_ERROR)
  /\ output_guarded_block recording_write_d recording_write LOGI
       (plain_unit false) main_42 (ret tt) (fun _ : unit => ret ("i", []))
       (fresh_world 0)
     = (Returned tt,
        {| user := [ZF_LOG_INFO]; globals := globals (fresh_world 0);
           sink_calls := [] |}).
Proof.
  split.
  - refine (proj1 (output_guard_agrees_with_statement (list Z)
                     recording_write_d recording_write unit LOGD
                     (plain_unit false) main_42 abort
                     (fun _ : unit => ret ("d", []))
                     (fresh_world ZF_LOG_ERROR)) _).
    reflexivity.
  - refine (eq_trans
              (proj2 (output_guard_agrees_with_statement (list Z)
                        recording_write_d recording_write unit LOGI
                        (plain_unit false) main_42 (ret tt)
                        (fun _ : unit => ret ("i", []))
                        (fresh_world 0)) _ tt (fresh_world 0) _ _) _);
      reflexivity.
Defined.

(** A FATAL statement in a release build: [_zf_log_write] is called once,
    with level 6. *)
Lemma emitted_statement_calls_write_once_witness :
  ZF_LOG recording_write_d recording_write LOGF (plain_unit true) main_42
    (ret ("f", [])) (fresh_world 0)
  = (Returned tt,
     {| user := [ZF_LOG_FATAL]; globals := globals (fresh_world 0);
        sink_calls := [] |}).
Proof.
  refine (eq_trans
            (emitted_statement_calls_write_once (list Z)
               recording_write_d recording_write LOGF (plain_unit true)
               main_42 (ret ("f", [])) (fresh_world 0) _) _);
    reflexivity.
Defined.
